(** * Futuristic Corp MVP API: content resolution, catalog and lead intake

    A shallow embedding of [main.py]: the page, product and lead handlers,
    the pydantic models they use, and the document store they read and
    write.  Handlers are pure functions of the request and of the state of
    the [database] module; Python exceptions are values of an error monad. *)

From Stdlib Require Import PrimFloat Uint63 ZArith String Ascii List Bool Lia.
Import ListNotations.
Set Warnings "-register-all".

Open Scope string_scope.
Open Scope Z_scope.

(** ** Documents

    The values a stored document, a request body or a response body is
    made of: Python's [None], [bool], [int], [float], [str], [list] and
    [dict] with string keys, and the store's own object identifier. *)

Inductive value : Type :=
| VNone
| VBool (b : bool)
| VInt (z : Z)
| VFloat (f : float)
| VStr (s : string)
| VList (l : list value)
| VDict (d : list (string * value))
| VObjectId (hex : string).

(** A Python [dict]: insertion-ordered, looked up by key. *)
Definition dict : Type := list (string * value).

Module Dict.

(** [d.get(k)] *)
Fixpoint get (k : string) (d : dict) : option value :=
  match d with
  | [] => None
  | (k', v) :: d' => if String.eqb k' k then Some v else get k d'
  end.

(** [d[k] = v]: overwrite in place, or append a new key. *)
Fixpoint set (k : string) (v : value) (d : dict) : dict :=
  match d with
  | [] => [(k, v)]
  | (k', v') :: d' =>
      if String.eqb k' k then (k, v) :: d' else (k', v') :: set k v d'
  end.

(** The dict without key [k]. *)
Fixpoint remove (k : string) (d : dict) : dict :=
  match d with
  | [] => []
  | (k', v) :: d' =>
      if String.eqb k' k then remove k d' else (k', v) :: remove k d'
  end.

(** [list(d)]: the keys, in order. *)
Definition keys (d : dict) : list string := map fst d.

(** [bool(d)] *)
Definition truthy (d : dict) : bool :=
  match d with [] => false | _ :: _ => true end.

End Dict.

(** ** Exceptions *)

Inductive exn : Type :=
| ImportError
| StorageError
| ValidationError
| TypeError
| KeyError.

Inductive result (A : Type) : Type :=
| Return (a : A)
| Raise (e : exn).
Arguments Return {A} a.
Arguments Raise {A} e.

Definition bind {A B : Type} (c : result A) (k : A -> result B) : result B :=
  match c with
  | Return a => k a
  | Raise e => Raise e
  end.

Notation "x <- c ;; k" := (bind c (fun x => k))
  (at level 61, c at next level, right associativity).

(** A list comprehension whose element expression may raise. *)
Fixpoint traverse {A B : Type} (f : A -> result B) (l : list A)
  : result (list B) :=
  match l with
  | [] => Return []
  | a :: l' => b <- f a ;; bs <- traverse f l' ;; Return (b :: bs)
  end.

(** [try: body / except Exception: pass].  The body yields [Some r] when it
    executes [return r] and [None] when it runs off its end. *)
Definition try_pass {A : Type} (body : result (option A)) : option A :=
  match body with
  | Return r => r
  | Raise _ => None
  end.

(** What a handler hands to the HTTP layer: a body to send with status 200,
    an [HTTPException], the framework's own 422 for a body that does not
    validate, or an exception nobody caught. *)
Inductive response : Type :=
| JSON (body : value)
| HTTPException (status_code : Z) (detail : string)
| RequestValidationError
| Uncaught (e : exn).

(** ** Storage accessor *)

(** Modelled from the spec: the [database] module and the document store
    behind it, which are not part of the sources.  A collection either holds
    its documents, in storage order, or cannot be reached, in which case
    every operation on it raises. *)
Inductive collection : Type :=
| Docs (docs : list dict)
| Unreachable.

(** [db[name]] *)
Definition Database : Type := string -> collection.

(** The state of [from database import db]: the import fails, or it binds
    [db], which may be [None]. *)
Inductive database_module : Type :=
| NoModule
| Module_db (db : option Database).

(** Modelled from the spec: the projection [{"_id": 0}] of the document
    store, which drops the internal storage identifier. *)
Definition project_out_id (d : dict) : dict := Dict.remove "_id" d.

Definition slug_is (slug : string) (d : dict) : bool :=
  match Dict.get "slug" d with
  | Some (VStr s) => String.eqb s slug
  | _ => false
  end.

(** Modelled from the spec: [find_one({"slug": slug}, projection)] of the
    document store, the first document whose slug equals the key. *)
Definition find_one (c : collection) (slug : string) (projection : bool)
  : result (option dict) :=
  match c with
  | Unreachable => Raise StorageError
  | Docs docs =>
      Return (option_map (fun d => if projection then project_out_id d else d)
                         (List.find (slug_is slug) docs))
  end.

(** Modelled from the spec: [list(find({}, {"_id": 0}))] of the document
    store, every document of the collection without its identifier. *)
Definition find_all (c : collection) : result (list dict) :=
  match c with
  | Unreachable => Raise StorageError
  | Docs docs => Return (map project_out_id docs)
  end.

Definition update (db : Database) (name : string) (c : collection) : Database :=
  fun n => if String.eqb n name then c else db n.

(** Modelled from the spec: [create_document(name, data)] of the [database]
    module, which persists the document and leaves [data] as it was. *)
Definition create_document (env : database_module) (name : string)
  (data : dict) : result database_module :=
  match env with
  | NoModule => Raise ImportError
  | Module_db None => Raise StorageError
  | Module_db (Some db) =>
      match db name with
      | Unreachable => Raise StorageError
      | Docs docs => Return (Module_db (Some (update db name (Docs (docs ++ [data])))))
      end
  end.

Definition _db_available (env : database_module) : bool :=
  match env with
  | NoModule => false
  | Module_db None => false
  | Module_db (Some _) => true
  end.

Definition _get_db (env : database_module) : result (option Database) :=
  match env with
  | NoModule => Raise ImportError
  | Module_db db => Return db
  end.

(** [db[name]], which raises on [None]. *)
Definition subscript (db : option Database) (name : string)
  : result collection :=
  match db with
  | None => Raise TypeError
  | Some d => Return (d name)
  end.

(** ** Pydantic models *)

(** The lax-mode coercions of the validation library into [int] and [bool]
    fields.  The library is not part of the sources, so its conversion
    table is a parameter; all that is used of it is that a value which
    already has the field's type is taken as it is. *)
Class Coercions : Type := {
  int_lax : value -> option Z;
  bool_lax : value -> option bool;
  int_lax_exact : forall z, int_lax (VInt z) = Some z;
  bool_lax_exact : forall b, bool_lax (VBool b) = Some b
}.

(** The coercions that accept a value of the field's type and nothing else. *)
#[export] Instance same_type_only : Coercions := {|
  int_lax := fun v => match v with VInt z => Some z | _ => None end;
  bool_lax := fun v => match v with VBool b => Some b | _ => None end;
  int_lax_exact := fun z => eq_refl;
  bool_lax_exact := fun b => eq_refl
|}.

(** A required [str] field. *)
Definition required_str (o : option value) : result string :=
  match o with
  | Some (VStr s) => Return s
  | _ => Raise ValidationError
  end.

(** An [Optional[str]] field with default [dflt]. *)
Definition optional_str (dflt : option string) (o : option value)
  : result (option string) :=
  match o with
  | None => Return dflt
  | Some VNone => Return None
  | Some (VStr s) => Return (Some s)
  | Some _ => Raise ValidationError
  end.

(** A field of type [T] with default [dflt]; the default is not validated. *)
Definition with_default {T : Type} (dflt : T) (coerce : value -> option T)
  (o : option value) : result T :=
  match o with
  | None => Return dflt
  | Some v =>
      match coerce v with
      | Some t => Return t
      | None => Raise ValidationError
      end
  end.

(** A [Dict[str, Any]] field. *)
Definition dict_field (v : value) : option dict :=
  match v with VDict d => Some d | _ => None end.

Definition dump_opt_str (o : option string) : value :=
  match o with Some s => VStr s | None => VNone end.

Definition dump_opt_float (o : option float) : value :=
  match o with Some f => VFloat f | None => VNone end.

(** [class Section(BaseModel)] *)
Record Section_ : Type := {
  section_type : string;
  section_data : dict;
  section_position : Z;
  section_is_visible : bool
}.

(** [Section] built from the keyword arguments [s]. *)
Definition Section_validate `{Coercions} (s : dict) : result Section_ :=
  type <- required_str (Dict.get "type" s) ;;
  data <- with_default [] dict_field (Dict.get "data" s) ;;
  position <- with_default 0 int_lax (Dict.get "position" s) ;;
  is_visible <- with_default true bool_lax (Dict.get "is_visible" s) ;;
  Return {| section_type := type; section_data := data;
            section_position := position; section_is_visible := is_visible |}.

Definition Section_model_dump (s : Section_) : dict :=
  [ ("type", VStr (section_type s));
    ("data", VDict (section_data s));
    ("position", VInt (section_position s));
    ("is_visible", VBool (section_is_visible s)) ].

(** [class Page(BaseModel)] *)
Record Page : Type := {
  page_title : string;
  page_slug : string;
  page_status : string;
  page_locale : string;
  page_sections : list Section_
}.

Definition Page_model_dump (p : Page) : dict :=
  [ ("title", VStr (page_title p));
    ("slug", VStr (page_slug p));
    ("status", VStr (page_status p));
    ("locale", VStr (page_locale p));
    ("sections", VList (map (fun s => VDict (Section_model_dump s))
                            (page_sections p))) ].

(** [class Product(BaseModel)] *)
Record Product : Type := {
  product_name : string;
  product_slug : string;
  product_sku : option string;
  product_short_desc : option string;
  product_price : option float;
  product_currency : option string;
  product_specs : dict;
  product_category : option string;
  product_model_3d_url : option string;
  product_images : list string
}.

Definition Product_model_dump (p : Product) : dict :=
  [ ("name", VStr (product_name p));
    ("slug", VStr (product_slug p));
    ("sku", dump_opt_str (product_sku p));
    ("short_desc", dump_opt_str (product_short_desc p));
    ("price", dump_opt_float (product_price p));
    ("currency", dump_opt_str (product_currency p));
    ("specs", VDict (product_specs p));
    ("category", dump_opt_str (product_category p));
    ("model_3d_url", dump_opt_str (product_model_3d_url p));
    ("images", VList (map VStr (product_images p))) ].

(** [class Lead(BaseModel)] *)
Record Lead : Type := {
  lead_name : string;
  lead_email : string;
  lead_phone : option string;
  lead_company : option string;
  lead_message : option string;
  lead_product_slug : option string;
  lead_source : option string
}.

(** [Lead] built from the request body, as the framework builds the
    handler's argument. *)
Definition Lead_validate (body : dict) : result Lead :=
  name <- required_str (Dict.get "name" body) ;;
  email <- required_str (Dict.get "email" body) ;;
  phone <- optional_str None (Dict.get "phone" body) ;;
  company <- optional_str None (Dict.get "company" body) ;;
  message <- optional_str None (Dict.get "message" body) ;;
  product_slug <- optional_str None (Dict.get "product_slug" body) ;;
  source <- optional_str (Some "website") (Dict.get "source" body) ;;
  Return {| lead_name := name; lead_email := email; lead_phone := phone;
            lead_company := company; lead_message := message;
            lead_product_slug := product_slug; lead_source := source |}.

Definition Lead_model_dump (l : Lead) : dict :=
  [ ("name", VStr (lead_name l));
    ("email", VStr (lead_email l));
    ("phone", dump_opt_str (lead_phone l));
    ("company", dump_opt_str (lead_company l));
    ("message", dump_opt_str (lead_message l));
    ("product_slug", dump_opt_str (lead_product_slug l));
    ("source", dump_opt_str (lead_source l)) ].

(** ** Pages *)

Definition default_homepage : Page :=
  let hero :=
    {| section_type := "hero_spline";
       section_position := 0;
       section_data :=
         [ ("headline", VStr "Engineered Excellence. Delivered Globally.");
           ("subheadline",
            VStr "A premium, cinematic 3D experience for a global technology group.");
           ("cta", VDict [ ("label", VStr "Explore Verticals");
                           ("href", VStr "#verticals") ]);
           ("splineUrl",
            VStr "https://prod.spline.design/EF7JOSsHLk16Tlw9/scene.splinecode") ];
       section_is_visible := true |} in
  let item (title subtitle icon : string) :=
    VDict [ ("title", VStr title); ("subtitle", VStr subtitle);
            ("icon", VStr icon) ] in
  let verticals :=
    {| section_type := "feature_grid";
       section_position := 1;
       section_data :=
         [ ("id", VStr "verticals");
           ("title", VStr "Business Verticals");
           ("items",
            VList [ item "Payment Devices" "POS, Tap & Pay, QR" "CreditCard";
                    item "Smart Home & IoT" "AI cameras, locks, sensors" "Cpu";
                    item "Mobile Accessories" "GaN chargers, power banks"
                         "BatteryCharging";
                    item "R&D & Manufacturing" "Vertically integrated"
                         "Factory" ]) ];
       section_is_visible := true |} in
  {| page_title := "Home"; page_slug := "home"; page_status := "published";
     page_locale := "en"; page_sections := [hero; verticals] |}.

(** A byte that continues a UTF-8 character rather than starting one. *)
Definition continuation (c : ascii) : bool :=
  match c with
  | Ascii _ _ _ _ _ _ b6 b7 => b7 && negb b6
  end.

(** [list(s)] for a string: its characters, each one the byte that starts
    it followed by the bytes that continue it in UTF-8. *)
Fixpoint characters (s : string) : list string :=
  match s with
  | EmptyString => []
  | String c s' =>
      match characters s' with
      | String c' g :: l =>
          if continuation c' then String c (String c' g) :: l
          else String c EmptyString :: String c' g :: l
      | l => String c EmptyString :: l
      end
  end.

(** [for s in v]: the elements of a list, the characters of a string, the
    keys of a dict; anything else is not iterable. *)
Definition iterate (v : value) : result (list value) :=
  match v with
  | VList l => Return l
  | VStr s => Return (map VStr (characters s))
  | VDict d => Return (map VStr (Dict.keys d))
  | _ => Raise TypeError
  end.

(** [Section(...).model_dump() if isinstance(s, dict) else s] *)
Definition normalize_section `{Coercions} (s : value) : result value :=
  match s with
  | VDict d => sec <- Section_validate d ;; Return (VDict (Section_model_dump sec))
  | _ => Return s
  end.

(** [doc.get("sections", [])] *)
Definition sections_of (doc : dict) : value :=
  match Dict.get "sections" doc with
  | Some v => v
  | None => VList []
  end.

(** The [try] block of [get_page]. *)
Definition get_page_stored `{Coercions} (env : database_module) (slug : string)
  : result (option response) :=
  db <- _get_db env ;;
  coll <- subscript db "page" ;;
  doc <- find_one coll slug false ;;
  match doc with
  | Some doc =>
      if Dict.truthy doc then
        secs <- iterate (sections_of doc) ;;
        sections <- traverse normalize_section secs ;;
        Return (Some (JSON (VDict (Dict.set "sections" (VList sections) doc))))
      else Return None
  | None => Return None
  end.

(** What [get_page] does once the stored lookup has given nothing. *)
Definition page_fallback (slug : string) : response :=
  if String.eqb slug "home"
  then JSON (VDict (Page_model_dump default_homepage))
  else HTTPException 404 "Page not found".

Definition get_page `{Coercions} (env : database_module) (slug : string)
  : response :=
  match (if _db_available env then try_pass (get_page_stored env slug)
         else None) with
  | Some r => r
  | None => page_fallback slug
  end.

(** ** Products *)

(** An [int] literal given to a [float] field; exact for the magnitudes
    below [2^53] that the sources use. *)
Definition float_of_int (z : Z) : float :=
  if z <? 0 then PrimFloat.opp (PrimFloat.of_uint63 (Uint63.of_Z (- z)))
  else PrimFloat.of_uint63 (Uint63.of_Z z).

Definition _default_products : list dict :=
  let product (name slug sku short_desc : string) (price : Z)
              (category image : string) :=
    Product_model_dump
      {| product_name := name; product_slug := slug;
         product_sku := Some sku; product_short_desc := Some short_desc;
         product_price := Some (float_of_int price);
         product_currency := Some "USD"; product_specs := [];
         product_category := Some category; product_model_3d_url := None;
         product_images := [image] |} in
  [ product "POS Pro X" "pos-pro-x" "POS-PRO-X" "Rugged POS with NFC & printer"
            399 "payment" "/images/pos-pro-x.jpg";
    product "GaN Charger 30W" "gan-30w" "GAN-30W" "Ultra-compact fast charger"
            29 "accessories" "/images/gan-30w.jpg";
    product "AI Camera S1" "ai-cam-s1" "AI-CAM-S1" "Smart AI security camera"
            99 "smarthome" "/images/ai-cam-s1.jpg" ].

Definition items_body (items : list dict) : value :=
  VDict [ ("items", VList (map VDict items)) ].

(** The [try] block of [list_products]. *)
Definition list_products_stored (env : database_module)
  : result (option response) :=
  db <- _get_db env ;;
  coll <- subscript db "product" ;;
  items <- find_all coll ;;
  match items with
  | [] => Return None
  | _ :: _ => Return (Some (JSON (items_body items)))
  end.

Definition list_products (env : database_module) : response :=
  match (if _db_available env then try_pass (list_products_stored env)
         else None) with
  | Some r => r
  | None => JSON (items_body _default_products)
  end.

(** The [try] block of [get_product]. *)
Definition get_product_stored (env : database_module) (slug : string)
  : result (option response) :=
  db <- _get_db env ;;
  coll <- subscript db "product" ;;
  item <- find_one coll slug true ;;
  match item with
  | Some item =>
      if Dict.truthy item then Return (Some (JSON (VDict item)))
      else Return None
  | None => Return None
  end.

(** [v == slug] for a string [slug]. *)
Definition eq_str (v : value) (slug : string) : bool :=
  match v with
  | VStr s => String.eqb s slug
  | _ => false
  end.

(** The loop over the defaults that ends [get_product]. *)
Fixpoint product_fallback (ps : list dict) (slug : string) : response :=
  match ps with
  | [] => HTTPException 404 "Product not found"
  | p :: ps' =>
      match Dict.get "slug" p with
      | None => Uncaught KeyError
      | Some v => if eq_str v slug then JSON (VDict p)
                  else product_fallback ps' slug
      end
  end.

Definition get_product (env : database_module) (slug : string) : response :=
  match (if _db_available env then try_pass (get_product_stored env slug)
         else None) with
  | Some r => r
  | None => product_fallback _default_products slug
  end.

(** ** Leads *)

Definition lead_received (payload : dict) : response :=
  JSON (VDict [ ("status", VStr "ok");
                ("message", VStr "Lead received");
                ("lead", VDict payload) ]).

(** The handler, with the state of the store after it. *)
Definition create_lead (env : database_module) (lead : Lead)
  : response * database_module :=
  let payload := Lead_model_dump lead in
  let env' :=
    if _db_available env then
      match create_document env "lead" payload with
      | Return e => e
      | Raise _ => env
      end
    else env in
  (lead_received payload, env').

(** [POST /api/leads]: the framework validates the body into a [Lead] and
    answers 422 itself when that fails. *)
Definition post_api_leads (env : database_module) (body : value)
  : response * database_module :=
  match body with
  | VDict b =>
      match Lead_validate b with
      | Return lead => create_lead env lead
      | Raise _ => (RequestValidationError, env)
      end
  | _ => (RequestValidationError, env)
  end.

(** ** Vocabulary of the statements *)

(** The stored document that matches [slug] in collection [name], if the
    store can be asked and has one. *)
Definition stored_document (env : database_module) (name slug : string)
  : option dict :=
  match env with
  | Module_db (Some db) =>
      match db name with
      | Docs docs => List.find (slug_is slug) docs
      | Unreachable => None
      end
  | _ => None
  end.

(** Storage that cannot serve collection [name]: no module, no client, or a
    collection whose queries raise. *)
Definition storage_down (env : database_module) (name : string) : bool :=
  match env with
  | Module_db (Some db) =>
      match db name with
      | Docs _ => false
      | Unreachable => true
      end
  | _ => true
  end.

(** Storage that gives the catalog nothing to list: down, or reachable with
    no product in it. *)
Definition catalog_unserved (env : database_module) : bool :=
  match env with
  | Module_db (Some db) =>
      match db "product" with
      | Docs [] => true
      | Docs (_ :: _) => false
      | Unreachable => true
      end
  | _ => true
  end.

Definition default_slugs : list string := ["pos-pro-x"; "gan-30w"; "ai-cam-s1"].

Definition is_str (o : option value) : bool :=
  match o with
  | Some (VStr _) => true
  | _ => false
  end.

Definition is_str_or_absent (o : option value) : bool :=
  match o with
  | None | Some VNone | Some (VStr _) => true
  | Some _ => false
  end.

(** A body whose [name] and [email] are strings and whose other lead fields
    are strings, null or left out.  Nothing here looks inside a string. *)
Definition lead_fields_typed (body : dict) : bool :=
  is_str (Dict.get "name" body) && is_str (Dict.get "email" body)
  && is_str_or_absent (Dict.get "phone" body)
  && is_str_or_absent (Dict.get "company" body)
  && is_str_or_absent (Dict.get "message" body)
  && is_str_or_absent (Dict.get "product_slug" body)
  && is_str_or_absent (Dict.get "source" body).

(** What the payload holds under key [k] when the body leaves [k] out. *)
Definition lead_default (k : string) : value :=
  if String.eqb k "source" then VStr "website" else VNone.

Definition lead_keys : list string :=
  ["name"; "email"; "phone"; "company"; "message"; "product_slug"; "source"].

(** A section record as the Section model leaves it: exactly the four
    fields, [type] as given, and [data], [position] and [is_visible] at
    their defaults where [s] has none and as given where [s] has them with
    the field's type. *)
Definition defaults_filled (s out : dict) : Prop :=
  Dict.keys out = ["type"; "data"; "position"; "is_visible"]
  /\ (exists type, Dict.get "type" s = Some (VStr type)
                   /\ Dict.get "type" out = Some (VStr type))
  /\ (Dict.get "data" s = None -> Dict.get "data" out = Some (VDict []))
  /\ (Dict.get "position" s = None -> Dict.get "position" out = Some (VInt 0))
  /\ (Dict.get "is_visible" s = None ->
      Dict.get "is_visible" out = Some (VBool true))
  /\ (forall d, Dict.get "data" s = Some (VDict d) ->
                Dict.get "data" out = Some (VDict d))
  /\ (forall z, Dict.get "position" s = Some (VInt z) ->
                Dict.get "position" out = Some (VInt z))
  /\ (forall b, Dict.get "is_visible" s = Some (VBool b) ->
                Dict.get "is_visible" out = Some (VBool b)).

(** A field that is left out, or whose value the field's type accepts. *)
Definition absent_or {T : Type} (coerce : value -> option T)
  (o : option value) : bool :=
  match o with
  | None => true
  | Some v => match coerce v with Some _ => true | None => false end
  end.

(** The mappings the Section model accepts: a string [type], and nothing
    the other three fields refuse.  What is not a mapping is not validated. *)
Definition section_accepted `{Coercions} (s : value) : bool :=
  match s with
  | VDict d =>
      is_str (Dict.get "type" d)
      && absent_or dict_field (Dict.get "data" d)
      && absent_or int_lax (Dict.get "position" d)
      && absent_or bool_lax (Dict.get "is_visible" d)
  | _ => true
  end.

(** How a stored section relates to the one returned in its place. *)
Definition section_normalized (s out : value) : Prop :=
  match s with
  | VDict d => exists o, out = VDict o /\ defaults_filled d o
  | _ => out = s
  end.

(** ** Sample stores *)

Definition empty_store : Database := fun _ => Docs [].

Definition broken_store : Database := fun _ => Unreachable.

Definition about_page : dict :=
  [ ("_id", VObjectId "65f0c0ffee0000000000a001");
    ("title", VStr "About");
    ("slug", VStr "about");
    ("sections", VList [ VDict [ ("type", VStr "rich_text") ];
                         VDict [ ("type", VStr "cta");
                                 ("position", VInt 3);
                                 ("is_visible", VBool false) ];
                         VStr "divider" ]) ].

Definition untyped_page : dict :=
  [ ("_id", VObjectId "65f0c0ffee0000000000a002");
    ("title", VStr "Careers");
    ("slug", VStr "careers");
    ("sections", VList [ VDict [ ("position", VInt 1) ] ]) ].

Definition stored_charger : dict :=
  [ ("_id", VObjectId "65f0c0ffee0000000000b001");
    ("name", VStr "GaN Charger 65W");
    ("slug", VStr "gan-65w");
    ("price", VFloat 49%float) ].

Definition sample_store : Database :=
  fun name =>
    if String.eqb name "page" then Docs [about_page; untyped_page]
    else if String.eqb name "product" then Docs [stored_charger]
    else Docs [].

(** ** Diagnostic probe *)

(** [os.getenv]: the process environment. *)
Definition environ : Type := string -> option string.

(** Truthiness of [os.getenv(k)]: set, and not to the empty string. *)
Definition getenv_truthy (os : environ) (k : string) : bool :=
  match os k with
  | Some s => negb (String.eqb s "")
  | None => false
  end.

(** [len(s)], in characters. *)
Fixpoint len (s : string) : nat :=
  match s with
  | EmptyString => O
  | String c s' => if continuation c then len s' else S (len s')
  end.

(** [s[:n]]: the first [n] characters of a UTF-8 string. *)
Fixpoint slice_to (n : nat) (s : string) : string :=
  match s with
  | EmptyString => EmptyString
  | String c s' =>
      if continuation c then String c (slice_to n s')
      else match n with
           | O => EmptyString
           | S n' => String c (slice_to n' s')
           end
  end.

(** What [db.list_collection_names()] does. *)
Inductive listing : Type :=
| Names (collections : list string)
| ListingError (message : string).

(** Modelled from the spec: the client object [db] of the [database]
    module as the probe sees it, its [name] attribute if it has one and the
    outcome of listing its collections. *)
Record client : Type := {
  client_name : option value;
  list_collection_names : listing
}.

(** What [from database import db] does for the probe: [ImportError], any
    other exception, or a binding of [db], which may be [None]. *)
Inductive imported : Type :=
| ModuleNotFound
| ImportCrashes (message : string)
| Bound (db : option client).

Definition set_flag (os : environ) (k : string) : value :=
  if getenv_truthy os k then VStr "✅ Set" else VStr "❌ Not Set".

Definition test_database (os : environ) (m : imported) : dict :=
  let report :=
    [ ("backend", VStr "✅ Running");
      ("database", VStr "❌ Not Available");
      ("database_url", VNone);
      ("database_name", VNone);
      ("connection_status", VStr "Not Connected");
      ("collections", VList []) ] in
  let report :=
    match m with
    | Bound (Some db) =>
        let report := Dict.set "database" (VStr "✅ Available") report in
        let report :=
          Dict.set "database_url" (set_flag os "DATABASE_URL") report in
        let report :=
          Dict.set "database_name"
            (match client_name db with
             | Some name => name
             | None => set_flag os "DATABASE_NAME"
             end) report in
        match list_collection_names db with
        | Names collections =>
            let report :=
              Dict.set "collections"
                (VList (map VStr (firstn 10 collections))) report in
            let report :=
              Dict.set "database" (VStr "✅ Connected & Working") report in
            Dict.set "connection_status" (VStr "Connected") report
        | ListingError e =>
            Dict.set "database"
              (VStr ("⚠️  Connected but Error: " ++ slice_to 80 e)) report
        end
    | Bound None =>
        Dict.set "database" (VStr "⚠️  Available but not initialized") report
    | ModuleNotFound =>
        Dict.set "database" (VStr "❌ Database module not found") report
    | ImportCrashes e =>
        Dict.set "database" (VStr ("❌ Error: " ++ slice_to 80 e)) report
    end in
  let report := Dict.set "database_url" (set_flag os "DATABASE_URL") report in
  Dict.set "database_name" (set_flag os "DATABASE_NAME") report.

(** Which of its five branches the probe took. *)
Inductive probe_branch : Type :=
| module_not_found
| import_crashed
| not_initialized
| listing_failed
| connected.

Definition branch_of (m : imported) : probe_branch :=
  match m with
  | ModuleNotFound => module_not_found
  | ImportCrashes _ => import_crashed
  | Bound None => not_initialized
  | Bound (Some db) =>
      match list_collection_names db with
      | Names _ => connected
      | ListingError _ => listing_failed
      end
  end.

(** ** Schema introspection *)

(** [Model.model_fields.keys()]: the declared fields, in order. *)
Definition Page_model_fields : list string :=
  ["title"; "slug"; "status"; "locale"; "sections"].

Definition Section_model_fields : list string :=
  ["type"; "data"; "position"; "is_visible"].

Definition Product_model_fields : list string :=
  ["name"; "slug"; "sku"; "short_desc"; "price"; "currency"; "specs";
   "category"; "model_3d_url"; "images"].

Definition Lead_model_fields : list string :=
  ["name"; "email"; "phone"; "company"; "message"; "product_slug"; "source"].

Definition get_schema_overview : value :=
  let entity (name : string) (fields : list string) :=
    VDict [ ("name", VStr name); ("fields", VList (map VStr fields)) ] in
  VDict [ ("entities",
           VList [ entity "page" Page_model_fields;
                   entity "section" Section_model_fields;
                   entity "product" Product_model_fields;
                   entity "lead" Lead_model_fields ]) ].

(** ** More sample stores *)

Definition stored_gan_30w : dict :=
  [ ("_id", VObjectId "65f0c0ffee0000000000b002");
    ("name", VStr "GaN Charger 30W v2");
    ("slug", VStr "gan-30w");
    ("price", VFloat 35%float) ].

Definition draft_page : dict :=
  [ ("_id", VObjectId "65f0c0ffee0000000000a003");
    ("title", VStr "Draft");
    ("slug", VStr "draft");
    ("sections", VNone) ].

Definition bare_page : dict :=
  [ ("title", VStr "Bare"); ("slug", VStr "bare") ].

Definition second_store : Database :=
  fun name =>
    if String.eqb name "page" then Docs [draft_page; bare_page]
    else if String.eqb name "product" then Docs [stored_charger; stored_gan_30w]
    else Docs [].

Definition no_environ : environ := fun _ => None.

Definition full_environ : environ :=
  fun k => if String.eqb k "DATABASE_URL" then Some "mongodb://localhost:27017"
           else if String.eqb k "DATABASE_NAME" then Some "futuristic"
           else None.

Definition named_client : client :=
  {| client_name := Some (VStr "futuristic");
     list_collection_names :=
       Names ["page"; "product"; "lead"; "c4"; "c5"; "c6"; "c7"; "c8"; "c9";
              "c10"; "c11"; "c12"] |}.

Definition failing_client : client :=
  {| client_name := None;
     list_collection_names := ListingError "connection refused" |}.

(** ** Dictionaries and queries *)

Lemma get_remove_same (k : string) (d : dict) :
  Dict.get k (Dict.remove k d) = None.
Proof.
  induction d as [|[k' v] d IH]; simpl; [reflexivity|].
  destruct (String.eqb k' k) eqn:E; simpl; [exact IH|].
  now rewrite E.
Qed.

Lemma get_remove_other (k k' : string) (d : dict) :
  k <> k' -> Dict.get k' (Dict.remove k d) = Dict.get k' d.
Proof.
  intros Hne.
  induction d as [|[k0 v] d IH]; simpl; [reflexivity|].
  destruct (String.eqb_spec k0 k) as [->|Hk].
  - destruct (String.eqb_spec k k') as [E|_]; [contradiction | exact IH].
  - simpl. now rewrite IH.
Qed.

Lemma get_set_same (k : string) (v : value) (d : dict) :
  Dict.get k (Dict.set k v d) = Some v.
Proof.
  induction d as [|[k' v'] d IH]; simpl.
  - now rewrite String.eqb_refl.
  - destruct (String.eqb k' k) eqn:E; simpl.
    + now rewrite String.eqb_refl.
    + now rewrite E.
Qed.

Lemma get_set_other (k k' : string) (v : value) (d : dict) :
  k <> k' -> Dict.get k' (Dict.set k v d) = Dict.get k' d.
Proof.
  intros Hne.
  induction d as [|[k0 v0] d IH]; simpl.
  - destruct (String.eqb_spec k k'); [contradiction | reflexivity].
  - destruct (String.eqb_spec k0 k) as [->|Hk]; simpl.
    + destruct (String.eqb_spec k k'); [contradiction | reflexivity].
    + now rewrite IH.
Qed.

Lemma slug_is_get (slug : string) (d : dict) :
  slug_is slug d = true <-> Dict.get "slug" d = Some (VStr slug).
Proof.
  unfold slug_is.
  destruct (Dict.get "slug" d) as [[]|]; split; try discriminate.
  - now intros ->%String.eqb_eq.
  - intros [= ->]. apply String.eqb_refl.
Qed.

Lemma slug_is_truthy (slug : string) (d : dict) :
  slug_is slug d = true -> Dict.truthy d = true.
Proof. destruct d; [discriminate | reflexivity]. Qed.

Lemma slug_is_projected (slug : string) (d : dict) :
  slug_is slug (project_out_id d) = slug_is slug d.
Proof.
  unfold slug_is, project_out_id.
  now rewrite get_remove_other by discriminate.
Qed.

(** Splitting a string into characters loses and adds no byte. *)
Lemma characters_concat (s : string) : String.concat "" (characters s) = s.
Proof.
  induction s as [|c s IH]; [reflexivity|].
  simpl. destruct (characters s) as [|[|c' g] l] eqn:E.
  - simpl in *. now subst.
  - simpl in *. now rewrite <- IH.
  - destruct (continuation c'); rewrite <- IH; simpl; destruct l; reflexivity.
Qed.

(** ** The two outcomes of a lookup that found nothing *)

Lemma unavailable_page `{Coercions} (env : database_module) (slug : string) :
  _db_available env = false -> get_page env slug = page_fallback slug.
Proof. unfold get_page. now intros ->. Qed.

Lemma unavailable_product (env : database_module) (slug : string) :
  _db_available env = false ->
  get_product env slug = product_fallback _default_products slug.
Proof. unfold get_product. now intros ->. Qed.

Lemma absent_page `{Coercions} (env : database_module) (slug : string) :
  stored_document env "page" slug = None ->
  get_page env slug = page_fallback slug.
Proof.
  destruct env as [|[db|]]; try reflexivity.
  unfold stored_document, get_page, get_page_stored; simpl.
  destruct (db "page") as [docs|]; simpl; [|reflexivity].
  now intros ->.
Qed.

Lemma absent_product (env : database_module) (slug : string) :
  stored_document env "product" slug = None ->
  get_product env slug = product_fallback _default_products slug.
Proof.
  destruct env as [|[db|]]; try reflexivity.
  unfold stored_document, get_product, get_product_stored; simpl.
  destruct (db "product") as [docs|]; simpl; [|reflexivity].
  now intros ->.
Qed.

Lemma down_is_absent (env : database_module) (name slug : string) :
  storage_down env name = true -> stored_document env name slug = None.
Proof.
  destruct env as [|[db|]]; simpl; try reflexivity.
  destruct (db name); [discriminate | reflexivity].
Qed.

Lemma page_fallback_other (slug : string) :
  slug <> "home" -> page_fallback slug = HTTPException 404 "Page not found".
Proof.
  intros Hne. unfold page_fallback.
  destruct (String.eqb_spec slug "home"); [contradiction | reflexivity].
Qed.

(** The loop over the three defaults, unrolled. *)
Lemma product_fallback_cases (slug : string) :
  product_fallback _default_products slug =
  if String.eqb "pos-pro-x" slug then JSON (VDict (nth 0 _default_products []))
  else if String.eqb "gan-30w" slug then JSON (VDict (nth 1 _default_products []))
  else if String.eqb "ai-cam-s1" slug then JSON (VDict (nth 2 _default_products []))
  else HTTPException 404 "Product not found".
Proof. reflexivity. Qed.

Lemma product_fallback_unknown (slug : string) :
  ~ In slug default_slugs ->
  product_fallback _default_products slug = HTTPException 404 "Product not found".
Proof.
  intros Hn. rewrite product_fallback_cases.
  repeat match goal with
  | |- context [String.eqb ?a slug] =>
      destruct (String.eqb_spec a slug) as [<-|_];
      [exfalso; apply Hn; simpl; tauto|]
  end.
  reflexivity.
Qed.

Lemma product_fallback_known (slug : string) :
  In slug default_slugs ->
  exists p, In p _default_products
            /\ Dict.get "slug" p = Some (VStr slug)
            /\ product_fallback _default_products slug = JSON (VDict p).
Proof.
  intros [<-|[<-|[<-|[]]]];
    [ exists (nth 0 _default_products [])
    | exists (nth 1 _default_products [])
    | exists (nth 2 _default_products []) ];
    (split; [simpl; tauto | split; reflexivity]).
Qed.

(** ** Product resolution *)

(** C1, as stated, fails: with no store at all, and so no stored product
    document for [gan-30w], the lookup does not end in NotFound; it is
    answered from the built-in catalog. *)
Lemma default_product_served_without_store :
  stored_document NoModule "product" "gan-30w" = None
  /\ get_product NoModule "gan-30w" <> HTTPException 404 "Product not found".
Proof.
  split; [reflexivity|].
  rewrite unavailable_product by reflexivity.
  rewrite product_fallback_cases. simpl. discriminate.
Qed.

(** C1, amended: a slug with no matching stored product document fails with
    NotFound (404) unless it is one of the three built-in slugs [pos-pro-x],
    [gan-30w], [ai-cam-s1]; for those the built-in product of that slug is
    returned. *)
Theorem missing_product_not_found_unless_default
  (env : database_module) (slug : string) :
  stored_document env "product" slug = None ->
  (~ In slug default_slugs ->
   get_product env slug = HTTPException 404 "Product not found")
  /\ (In slug default_slugs ->
      exists p, In p _default_products
                /\ Dict.get "slug" p = Some (VStr slug)
                /\ get_product env slug = JSON (VDict p)).
Proof.
  intros Habs. rewrite (absent_product _ _ Habs). split.
  - apply product_fallback_unknown.
  - apply product_fallback_known.
Qed.

Lemma missing_product_not_found_unless_default_witness :
  get_product (Module_db (Some sample_store)) "gan-99w"
  = HTTPException 404 "Product not found".
Proof.
  apply (missing_product_not_found_unless_default
           (Module_db (Some sample_store)) "gan-99w").
  - reflexivity.
  - simpl. intros [E|[E|[E|[]]]]; discriminate E.
Defined.

(** C9: with no storage configured, [gan-30w] resolves to a product with
    price 29 and currency USD. *)
Theorem gan_30w_without_store (env : database_module) :
  _db_available env = false ->
  exists p, get_product env "gan-30w" = JSON (VDict p)
            /\ Dict.get "slug" p = Some (VStr "gan-30w")
            /\ Dict.get "price" p = Some (VFloat 29%float)
            /\ Dict.get "currency" p = Some (VStr "USD").
Proof.
  intros Hno. rewrite (unavailable_product _ _ Hno), product_fallback_cases.
  simpl. eexists. split; [reflexivity|]. repeat split.
Qed.

Lemma gan_30w_without_store_witness :
  exists p, get_product (Module_db None) "gan-30w" = JSON (VDict p)
            /\ Dict.get "slug" p = Some (VStr "gan-30w")
            /\ Dict.get "price" p = Some (VFloat 29%float)
            /\ Dict.get "currency" p = Some (VStr "USD").
Proof. apply (gan_30w_without_store (Module_db None)). reflexivity. Defined.

(** ** Catalog listing *)

(** C4: the response of the listing always has a non-empty list under
    [items], and when the store is absent, its query raises or it holds no
    product, that list is exactly the three built-in products, [pos-pro-x],
    [gan-30w] and [ai-cam-s1] in that order. *)
Theorem list_products_never_empty (env : database_module) :
  (exists body items,
     list_products env = JSON (VDict body)
     /\ Dict.get "items" body = Some (VList (map VDict items))
     /\ items <> [])
  /\ (catalog_unserved env = true ->
      exists p1 p2 p3,
        list_products env
        = JSON (VDict [ ("items", VList [VDict p1; VDict p2; VDict p3]) ])
        /\ [p1; p2; p3] = _default_products
        /\ Dict.get "slug" p1 = Some (VStr "pos-pro-x")
        /\ Dict.get "slug" p2 = Some (VStr "gan-30w")
        /\ Dict.get "slug" p3 = Some (VStr "ai-cam-s1")).
Proof.
  assert (Hdefault :
    exists body items,
      JSON (items_body _default_products) = JSON (VDict body)
      /\ Dict.get "items" body = Some (VList (map VDict items))
      /\ items <> []).
  { eexists. exists _default_products.
    split; [reflexivity|]. split; [reflexivity | discriminate]. }
  split.
  - destruct env as [|[db|]]; try exact Hdefault.
    unfold list_products, list_products_stored; simpl.
    destruct (db "product") as [[|d docs]|]; simpl; try exact Hdefault.
    eexists. exists (project_out_id d :: map project_out_id docs).
    split; [reflexivity|]. split; [reflexivity | discriminate].
  - intros Hdown.
    assert (Hlist : list_products env = JSON (items_body _default_products)).
    { destruct env as [|[db|]]; try reflexivity.
      unfold catalog_unserved in Hdown.
      unfold list_products, list_products_stored; simpl.
      destruct (db "product") as [[|d docs]|]; simpl;
        [reflexivity | discriminate | reflexivity]. }
    rewrite Hlist. do 3 eexists. split; [reflexivity|]. repeat split.
Qed.

Lemma list_products_never_empty_witness :
  exists p1 p2 p3,
    list_products (Module_db (Some empty_store))
    = JSON (VDict [ ("items", VList [VDict p1; VDict p2; VDict p3]) ])
    /\ [p1; p2; p3] = _default_products
    /\ Dict.get "slug" p1 = Some (VStr "pos-pro-x")
    /\ Dict.get "slug" p2 = Some (VStr "gan-30w")
    /\ Dict.get "slug" p3 = Some (VStr "ai-cam-s1").
Proof.
  apply (list_products_never_empty (Module_db (Some empty_store))).
  reflexivity.
Defined.

(** ** Page resolution *)

(** C5: with no storage configured, [home] resolves to the built-in page:
    slug [home] and exactly two sections, the hero at position 0 and then
    the feature grid at position 1. *)
Theorem home_without_store `{Coercions} (env : database_module) :
  _db_available env = false ->
  exists page hero grid,
    get_page env "home" = JSON (VDict page)
    /\ page = Page_model_dump default_homepage
    /\ Dict.get "slug" page = Some (VStr "home")
    /\ Dict.get "sections" page = Some (VList [VDict hero; VDict grid])
    /\ Dict.get "type" hero = Some (VStr "hero_spline")
    /\ Dict.get "position" hero = Some (VInt 0)
    /\ Dict.get "type" grid = Some (VStr "feature_grid")
    /\ Dict.get "position" grid = Some (VInt 1).
Proof.
  intros Hno. rewrite (unavailable_page _ _ Hno).
  do 3 eexists. split; [reflexivity|]. repeat split.
Qed.

Lemma home_without_store_witness :
  exists page hero grid,
    get_page NoModule "home" = JSON (VDict page)
    /\ page = Page_model_dump default_homepage
    /\ Dict.get "slug" page = Some (VStr "home")
    /\ Dict.get "sections" page = Some (VList [VDict hero; VDict grid])
    /\ Dict.get "type" hero = Some (VStr "hero_spline")
    /\ Dict.get "position" hero = Some (VInt 0)
    /\ Dict.get "type" grid = Some (VStr "feature_grid")
    /\ Dict.get "position" grid = Some (VInt 1).
Proof. apply (home_without_store NoModule). reflexivity. Defined.

(** C6: a slug other than [home] with no matching stored page document
    (no store, a store whose query raises, or no such document) fails with
    NotFound (404). *)
Theorem missing_page_not_found `{Coercions}
  (env : database_module) (slug : string) :
  slug <> "home" ->
  stored_document env "page" slug = None ->
  get_page env slug = HTTPException 404 "Page not found".
Proof.
  intros Hne Habs.
  rewrite (absent_page _ _ Habs). now apply page_fallback_other.
Qed.

Lemma missing_page_not_found_witness :
  get_page (Module_db (Some sample_store)) "pricing"
  = HTTPException 404 "Page not found"
  /\ get_page (Module_db (Some broken_store)) "about"
     = HTTPException 404 "Page not found".
Proof.
  split.
  - apply (missing_page_not_found (Module_db (Some sample_store)) "pricing");
      [discriminate | reflexivity].
  - apply (missing_page_not_found (Module_db (Some broken_store)) "about");
      [discriminate | reflexivity].
Defined.

(** ** Storage failure *)

(** C3, as stated, fails: with a store whose every query raises, resolving
    product [gan-30w] gives what it gives with no store, but that is the
    built-in product and not NotFound. *)
Lemma broken_store_serves_default_product :
  storage_down (Module_db (Some broken_store)) "product" = true
  /\ get_product (Module_db (Some broken_store)) "gan-30w"
     = get_product NoModule "gan-30w"
  /\ get_product (Module_db (Some broken_store)) "gan-30w"
     <> HTTPException 404 "Product not found".
Proof.
  split; [reflexivity|]. split; [reflexivity|].
  rewrite absent_product by reflexivity.
  rewrite product_fallback_cases. simpl. discriminate.
Qed.

(** C3, amended: resolving a page or product with a storage accessor that is
    unavailable, unreachable or whose query raises gives exactly the result
    of resolving with no storage configured: for a page, the built-in page
    for [home] and NotFound otherwise; for a product, the built-in product
    for one of the three built-in slugs and NotFound otherwise.  No other
    kind of error is surfaced. *)
Theorem storage_failure_is_absence `{Coercions}
  (env env0 : database_module) (slug : string) :
  _db_available env0 = false ->
  (storage_down env "page" = true ->
   get_page env slug = get_page env0 slug
   /\ get_page env slug
      = if String.eqb slug "home"
        then JSON (VDict (Page_model_dump default_homepage))
        else HTTPException 404 "Page not found")
  /\ (storage_down env "product" = true ->
      get_product env slug = get_product env0 slug
      /\ (In slug default_slugs ->
          exists p, In p _default_products
                    /\ Dict.get "slug" p = Some (VStr slug)
                    /\ get_product env slug = JSON (VDict p))
      /\ (~ In slug default_slugs ->
          get_product env slug = HTTPException 404 "Product not found")).
Proof.
  intros Hno. split; intros Hdown.
  - rewrite (unavailable_page env0 slug Hno).
    rewrite (absent_page env slug (down_is_absent _ _ slug Hdown)).
    split; reflexivity.
  - rewrite (unavailable_product env0 slug Hno).
    rewrite (absent_product env slug (down_is_absent _ _ slug Hdown)).
    split; [reflexivity|]. split.
    + apply product_fallback_known.
    + apply product_fallback_unknown.
Qed.

Lemma storage_failure_is_absence_witness :
  get_page (Module_db (Some broken_store)) "about" = get_page NoModule "about"
  /\ get_product (Module_db (Some broken_store)) "about"
     = get_product NoModule "about".
Proof.
  destruct (storage_failure_is_absence
              (Module_db (Some broken_store)) NoModule "about" eq_refl)
    as [Hpage Hproduct].
  split.
  - exact (proj1 (Hpage eq_refl)).
  - exact (proj1 (Hproduct eq_refl)).
Defined.

(** ** Stored documents *)

Lemma stored_document_matches (env : database_module) (name slug : string)
  (doc : dict) :
  stored_document env name slug = Some doc -> slug_is slug doc = true.
Proof.
  destruct env as [|[db|]]; simpl; try discriminate.
  destruct (db name) as [docs|]; [|discriminate].
  intros Hfind. now apply List.find_some in Hfind.
Qed.

Lemma found_page `{Coercions} (env : database_module) (slug : string)
  (doc : dict) :
  stored_document env "page" slug = Some doc ->
  get_page env slug =
  match (secs <- iterate (sections_of doc) ;; traverse normalize_section secs) with
  | Return sections => JSON (VDict (Dict.set "sections" (VList sections) doc))
  | Raise _ => page_fallback slug
  end.
Proof.
  intros Hdoc.
  pose proof (slug_is_truthy _ _ (stored_document_matches _ _ _ _ Hdoc)) as Ht.
  destruct env as [|[db|]]; simpl in Hdoc; try discriminate.
  unfold get_page, get_page_stored; simpl.
  destruct (db "page") as [docs|]; [|discriminate].
  simpl. rewrite Hdoc. simpl. rewrite Ht.
  destruct (iterate (sections_of doc)) as [secs|e]; simpl; [|reflexivity].
  destruct (traverse normalize_section secs); reflexivity.
Qed.

Lemma found_product (env : database_module) (slug : string) (doc : dict) :
  stored_document env "product" slug = Some doc ->
  get_product env slug = JSON (VDict (project_out_id doc)).
Proof.
  intros Hdoc.
  pose proof (stored_document_matches _ _ _ _ Hdoc) as Hm.
  rewrite <- slug_is_projected in Hm. apply slug_is_truthy in Hm.
  destruct env as [|[db|]]; simpl in Hdoc; try discriminate.
  unfold get_product, get_product_stored; simpl.
  destruct (db "product") as [docs|]; [|discriminate].
  simpl. rewrite Hdoc. simpl. now rewrite Hm.
Qed.

(** The product path does what the claim says: a stored product comes back
    with the slug asked for and without the storage identifier. *)
Lemma stored_product_has_no_id (env : database_module) (slug : string)
  (doc : dict) :
  stored_document env "product" slug = Some doc ->
  exists item, get_product env slug = JSON (VDict item)
               /\ Dict.get "slug" item = Some (VStr slug)
               /\ Dict.get "_id" item = None.
Proof.
  intros Hdoc. exists (project_out_id doc).
  split; [now apply found_product|]. split.
  - apply slug_is_get. rewrite slug_is_projected.
    now apply stored_document_matches with (env := env) (name := "product").
  - apply get_remove_same.
Qed.

(** C2 fails on the page path: [get_page] queries without the projection
    that [get_product] and [list_products] pass, so the stored page [about]
    is returned with its storage identifier still in it. *)
Theorem get_page_returns_storage_id :
  stored_document (Module_db (Some sample_store)) "page" "about"
  = Some about_page
  /\ exists page,
       get_page (Module_db (Some sample_store)) "about" = JSON (VDict page)
       /\ Dict.get "slug" page = Some (VStr "about")
       /\ Dict.get "_id" page = Some (VObjectId "65f0c0ffee0000000000a001").
Proof.
  split; [reflexivity|].
  eexists. split; [reflexivity|]. split; reflexivity.
Qed.

(** ** Section normalizer *)

Lemma with_default_accepted {T : Type} (dflt : T) (coerce : value -> option T)
  (o : option value) :
  absent_or coerce o = true ->
  exists t, with_default dflt coerce o = Return t
            /\ (o = None -> t = dflt)
            /\ (forall v, o = Some v -> coerce v = Some t).
Proof.
  destruct o as [v|]; simpl.
  - destruct (coerce v) as [t|] eqn:E; [|discriminate].
    intros _. exists t. repeat split; [discriminate | now intros ? [= <-]].
  - intros _. exists dflt. repeat split; discriminate.
Qed.


Lemma required_str_accepted (o : option value) :
  is_str o = true -> exists s, o = Some (VStr s) /\ required_str o = Return s.
Proof.
  destruct o as [[| | | |s| | |]|]; try discriminate.
  intros _. now exists s.
Qed.

Lemma required_str_rejected (o : option value) :
  is_str o = false -> required_str o = Raise ValidationError.
Proof. destruct o as [[| | | |s| | |]|]; try reflexivity. discriminate. Qed.

Lemma normalize_accepted `{Coercions} (s : value) :
  section_accepted s = true ->
  exists out, normalize_section s = Return out /\ section_normalized s out.
Proof.
  destruct s as [| | | | | |d|]; try (intros _; eexists; split; reflexivity).
  unfold section_accepted, normalize_section, Section_validate.
  intros Hacc.
  apply andb_prop in Hacc as [Hacc Hvis].
  apply andb_prop in Hacc as [Hacc Hpos].
  apply andb_prop in Hacc as [Htype Hdata].
  destruct (required_str_accepted _ Htype) as (type & Etype & ->).
  destruct (with_default_accepted [] _ _ Hdata) as (data & -> & Dd & Cd).
  destruct (with_default_accepted 0 _ _ Hpos) as (pos & -> & Dp & Cp).
  destruct (with_default_accepted true _ _ Hvis) as (vis & -> & Dv & Cv).
  simpl. eexists. split; [reflexivity|].
  eexists. split; [reflexivity|].
  unfold defaults_filled, Section_model_dump; simpl.
  split; [reflexivity|]. split; [now exists type|].
  split; [now intros ->%Dd|]. split; [now intros ->%Dp|].
  split; [now intros ->%Dv|]. split; [|split].
  - intros d' E. specialize (Cd _ E). simpl in Cd. congruence.
  - intros z E. specialize (Cp _ E). rewrite int_lax_exact in Cp. congruence.
  - intros b E. specialize (Cv _ E). rewrite bool_lax_exact in Cv. congruence.
Qed.


Lemma traverse_accepted `{Coercions} (secs : list value) :
  forallb section_accepted secs = true ->
  exists outs, traverse normalize_section secs = Return outs
               /\ Forall2 section_normalized secs outs.
Proof.
  induction secs as [|s secs IH]; simpl.
  - intros _. exists []. split; [reflexivity | constructor].
  - intros [Hs Hrest]%andb_prop.
    destruct (normalize_accepted s Hs) as (out & -> & Hout).
    destruct (IH Hrest) as (outs & -> & Houts).
    exists (out :: outs). split; [reflexivity | now constructor].
Qed.



(** The page path keeps whatever identifier the stored document has. *)
Lemma stored_page_keeps_id `{Coercions} (env : database_module)
  (slug : string) (doc : dict) (secs : list value) (id : value) :
  stored_document env "page" slug = Some doc ->
  iterate (sections_of doc) = Return secs ->
  forallb section_accepted secs = true ->
  Dict.get "_id" doc = Some id ->
  exists page, get_page env slug = JSON (VDict page)
               /\ Dict.get "_id" page = Some id.
Proof.
  intros Hdoc Hsecs Hall Hid.
  rewrite (found_page _ _ _ Hdoc), Hsecs. simpl.
  destruct (traverse_accepted _ Hall) as (outs & -> & _).
  eexists. split; [reflexivity|].
  now rewrite get_set_other by discriminate.
Qed.



(** ** Lead intake *)

Lemma optional_str_accepted (dflt : option string) (o : option value) :
  is_str_or_absent o = true ->
  exists r, optional_str dflt o = Return r
            /\ dump_opt_str r
               = match o with Some v => v | None => dump_opt_str dflt end.
Proof.
  destruct o as [[| | | |s| | |]|]; try discriminate; intros _.
  - now exists None.
  - now exists (Some s).
  - now exists dflt.
Qed.

Lemma optional_str_rejected (dflt : option string) (o : option value) :
  is_str_or_absent o = false -> optional_str dflt o = Raise ValidationError.
Proof. destruct o as [[| | | |s| | |]|]; try reflexivity; discriminate. Qed.

Lemma Lead_validate_typed (body : dict) :
  lead_fields_typed body = true ->
  exists lead,
    Lead_validate body = Return lead
    /\ forall k, In k lead_keys ->
         Dict.get k (Lead_model_dump lead)
         = Some (match Dict.get k body with
                 | Some v => v
                 | None => lead_default k
                 end).
Proof.
  unfold lead_fields_typed, Lead_validate. intros Hall.
  repeat match type of Hall with
  | (_ && _) = true => let H := fresh "H" in apply andb_prop in Hall as [Hall H]
  end.
  destruct (required_str_accepted _ Hall) as (name & En & ->).
  destruct (required_str_accepted _ H4) as (email & Ee & ->).
  destruct (optional_str_accepted None _ H3) as (phone & -> & Ep).
  destruct (optional_str_accepted None _ H2) as (company & -> & Ec).
  destruct (optional_str_accepted None _ H1) as (message & -> & Em).
  destruct (optional_str_accepted None _ H0) as (pslug & -> & Es).
  destruct (optional_str_accepted (Some "website") _ H) as (source & -> & Eo).
  simpl. eexists. split; [reflexivity|].
  intros k [<-|[<-|[<-|[<-|[<-|[<-|[<-|[]]]]]]]]; simpl;
    rewrite ?En, ?Ee, ?Ep, ?Ec, ?Em, ?Es, ?Eo; reflexivity.
Qed.

Lemma Lead_validate_untyped (body : dict) :
  lead_fields_typed body = false ->
  Lead_validate body = Raise ValidationError.
Proof.
  unfold lead_fields_typed, Lead_validate. intros Hno.
  destruct (is_str (Dict.get "name" body)) eqn:H1;
    [|now rewrite (required_str_rejected _ H1)].
  destruct (required_str_accepted _ H1) as (? & _ & ->).
  destruct (is_str (Dict.get "email" body)) eqn:H2;
    [|now rewrite (required_str_rejected _ H2)].
  destruct (required_str_accepted _ H2) as (? & _ & ->).
  destruct (is_str_or_absent (Dict.get "phone" body)) eqn:H3;
    [|now rewrite (optional_str_rejected _ _ H3)].
  destruct (optional_str_accepted None _ H3) as (? & -> & _).
  destruct (is_str_or_absent (Dict.get "company" body)) eqn:H4;
    [|now rewrite (optional_str_rejected _ _ H4)].
  destruct (optional_str_accepted None _ H4) as (? & -> & _).
  destruct (is_str_or_absent (Dict.get "message" body)) eqn:H5;
    [|now rewrite (optional_str_rejected _ _ H5)].
  destruct (optional_str_accepted None _ H5) as (? & -> & _).
  destruct (is_str_or_absent (Dict.get "product_slug" body)) eqn:H6;
    [|now rewrite (optional_str_rejected _ _ H6)].
  destruct (optional_str_accepted None _ H6) as (? & -> & _).
  simpl in Hno. simpl. now rewrite (optional_str_rejected _ _ Hno).
Qed.

Lemma create_lead_response (env : database_module) (lead : Lead) :
  fst (create_lead env lead) = lead_received (Lead_model_dump lead).
Proof. reflexivity. Qed.

(** Both outcomes of the write occur: a reachable store gains the payload,
    an unreachable one is left as it was. *)
Lemma create_lead_persists (db : Database) (docs : list dict) (lead : Lead) :
  db "lead" = Docs docs ->
  exists db', snd (create_lead (Module_db (Some db)) lead) = Module_db (Some db')
              /\ db' "lead" = Docs (docs ++ [Lead_model_dump lead]).
Proof.
  intros Hdocs. unfold create_lead; simpl. rewrite Hdocs.
  eexists. split; [reflexivity|]. unfold update. now rewrite String.eqb_refl.
Qed.

Lemma create_lead_write_fails (env : database_module) (lead : Lead) :
  storage_down env "lead" = true -> snd (create_lead env lead) = env.
Proof.
  destruct env as [|[db|]]; try reflexivity.
  unfold create_lead; simpl.
  destruct (db "lead"); [discriminate | reflexivity].
Qed.

(** C7: a valid lead is always acknowledged, whatever the state of the
    store (absent, failing on the write, or working): the response is
    status [ok] with the normalized payload under [lead], each field as the
    body gave it or at its default, [source] being [website] when the body
    has none. *)
Theorem lead_always_acknowledged
  (env : database_module) (body : dict) (lead : Lead) :
  Lead_validate body = Return lead ->
  fst (post_api_leads env (VDict body))
  = JSON (VDict [ ("status", VStr "ok");
                  ("message", VStr "Lead received");
                  ("lead", VDict (Lead_model_dump lead)) ])
  /\ fst (create_lead env lead) = fst (post_api_leads env (VDict body))
  /\ (forall k, In k lead_keys ->
        Dict.get k (Lead_model_dump lead)
        = Some (match Dict.get k body with
                | Some v => v
                | None => lead_default k
                end))
  /\ (Dict.get "source" body = None ->
      Dict.get "source" (Lead_model_dump lead) = Some (VStr "website")).
Proof.
  intros Hvalid.
  assert (Hecho : forall k, In k lead_keys ->
            Dict.get k (Lead_model_dump lead)
            = Some (match Dict.get k body with
                    | Some v => v
                    | None => lead_default k
                    end)).
  { destruct (lead_fields_typed body) eqn:Htyped.
    - destruct (Lead_validate_typed body Htyped) as (lead' & Hv & Hk).
      rewrite Hv in Hvalid. now injection Hvalid as <-.
    - rewrite (Lead_validate_untyped body Htyped) in Hvalid. discriminate. }
  split; [|split; [|split]].
  - unfold post_api_leads. rewrite Hvalid. apply create_lead_response.
  - unfold post_api_leads. now rewrite Hvalid.
  - exact Hecho.
  - intros Hsource. rewrite (Hecho "source") by (simpl; tauto).
    now rewrite Hsource.
Qed.

Lemma lead_always_acknowledged_witness :
  fst (post_api_leads NoModule
         (VDict [ ("name", VStr "A"); ("email", VStr "a@b.com") ]))
  = JSON (VDict
      [ ("status", VStr "ok");
        ("message", VStr "Lead received");
        ("lead", VDict [ ("name", VStr "A"); ("email", VStr "a@b.com");
                         ("phone", VNone); ("company", VNone);
                         ("message", VNone); ("product_slug", VNone);
                         ("source", VStr "website") ]) ]).
Proof.
  apply (lead_always_acknowledged NoModule
           [ ("name", VStr "A"); ("email", VStr "a@b.com") ]
           {| lead_name := "A"; lead_email := "a@b.com"; lead_phone := None;
              lead_company := None; lead_message := None;
              lead_product_slug := None; lead_source := Some "website" |}).
  reflexivity.
Defined.

(** C10: lead intake does not look inside [name] and [email].  A body whose
    lead fields have the right types is accepted and acknowledged with
    status [ok] and its fields echoed under [lead], and so is the same body
    with [name] or [email] replaced by the empty string, which is echoed as
    the empty string; a body is rejected exactly when [name] or [email] is
    left out or not a string, or another lead field is neither a string nor
    null. *)
Theorem empty_name_or_email_accepted (env : database_module) (body : dict) :
  (lead_fields_typed body = true ->
   exists payload,
     fst (post_api_leads env (VDict body))
     = JSON (VDict [ ("status", VStr "ok");
                     ("message", VStr "Lead received");
                     ("lead", VDict payload) ])
     /\ Dict.get "name" payload = Dict.get "name" body
     /\ Dict.get "email" payload = Dict.get "email" body
     /\ forall k, In k lead_keys ->
          Dict.get k payload
          = Some (match Dict.get k body with
                  | Some v => v
                  | None => lead_default k
                  end))
  /\ (lead_fields_typed body = true ->
      forall k, k = "name" \/ k = "email" ->
      exists payload,
        fst (post_api_leads env (VDict (Dict.set k (VStr "") body)))
        = JSON (VDict [ ("status", VStr "ok");
                        ("message", VStr "Lead received");
                        ("lead", VDict payload) ])
        /\ Dict.get k payload = Some (VStr "")
        /\ forall k', In k' lead_keys -> k' <> k ->
             Dict.get k' payload
             = Some (match Dict.get k' body with
                     | Some v => v
                     | None => lead_default k'
                     end))
  /\ (fst (post_api_leads env (VDict body)) = RequestValidationError
      <-> lead_fields_typed body = false).
Proof.
  assert (Hack : forall b, lead_fields_typed b = true ->
            exists payload,
              fst (post_api_leads env (VDict b))
              = JSON (VDict [ ("status", VStr "ok");
                              ("message", VStr "Lead received");
                              ("lead", VDict payload) ])
              /\ forall k, In k lead_keys ->
                   Dict.get k payload
                   = Some (match Dict.get k b with
                           | Some v => v
                           | None => lead_default k
                           end)).
  { intros b Htyped.
    destruct (Lead_validate_typed b Htyped) as (lead & Hv & Hk).
    exists (Lead_model_dump lead). unfold post_api_leads. rewrite Hv.
    split; [apply create_lead_response | exact Hk]. }
  assert (Hblank : lead_fields_typed body = true ->
            forall k, k = "name" \/ k = "email" ->
            lead_fields_typed (Dict.set k (VStr "") body) = true).
  { unfold lead_fields_typed. intros Htyped k [->| ->];
      rewrite !get_set_same, !get_set_other by discriminate.
    - destruct (is_str (Dict.get "name" body)); [exact Htyped | discriminate].
    - destruct (is_str (Dict.get "email" body));
        [exact Htyped | now rewrite andb_false_r in Htyped]. }
  split; [|split].
  - intros Htyped. destruct (Hack body Htyped) as (payload & Hresp & Hk).
    exists payload. split; [exact Hresp|].
    assert (Hstr : forall k, In k ["name"; "email"] ->
              is_str (Dict.get k body) = true).
    { unfold lead_fields_typed in Htyped.
      do 5 (apply andb_prop in Htyped as [Htyped _]).
      apply andb_prop in Htyped as [Hn He].
      intros k [<-|[<-|[]]]; assumption. }
    split; [|split; [|exact Hk]].
    + rewrite (Hk "name") by (simpl; tauto).
      destruct (required_str_accepted _ (Hstr "name" (or_introl eq_refl)))
        as (n & -> & _). reflexivity.
    + rewrite (Hk "email") by (simpl; tauto).
      destruct (required_str_accepted _
                  (Hstr "email" (or_intror (or_introl eq_refl))))
        as (e & -> & _). reflexivity.
  - intros Htyped k Hk.
    destruct (Hack _ (Hblank Htyped k Hk)) as (payload & Hresp & Hecho).
    exists payload. split; [exact Hresp|]. split.
    + rewrite Hecho by (destruct Hk as [->| ->]; simpl; tauto).
      now rewrite get_set_same.
    + intros k' Hin Hne. rewrite (Hecho k' Hin).
      now rewrite get_set_other by congruence.
  - unfold post_api_leads. split.
    + intros Hrej. destruct (lead_fields_typed body) eqn:Htyped; [|reflexivity].
      destruct (Lead_validate_typed body Htyped) as (lead & Hv & _).
      rewrite Hv, create_lead_response in Hrej. discriminate.
    + intros Hno. now rewrite (Lead_validate_untyped body Hno).
Qed.

Lemma empty_name_or_email_accepted_witness :
  exists payload,
    fst (post_api_leads (Module_db (Some empty_store))
           (VDict [ ("name", VStr ""); ("email", VStr "") ]))
    = JSON (VDict [ ("status", VStr "ok");
                    ("message", VStr "Lead received");
                    ("lead", VDict payload) ])
    /\ Dict.get "name" payload = Some (VStr "")
    /\ Dict.get "email" payload = Some (VStr "")
    /\ forall k, In k lead_keys ->
         Dict.get k payload
         = Some (match Dict.get k [ ("name", VStr ""); ("email", VStr "") ] with
                 | Some v => v
                 | None => lead_default k
                 end).
Proof.
  apply (empty_name_or_email_accepted (Module_db (Some empty_store))
           [ ("name", VStr ""); ("email", VStr "") ]).
  reflexivity.
Defined.

(** ** What the product handlers keep *)

Lemma items_body_inj (items items' : list dict) :
  JSON (items_body items) = JSON (items_body items') -> items = items'.
Proof.
  unfold items_body. intros [= Hmap].
  revert items' Hmap.
  induction items as [|d items IH]; intros [|d' items']; simpl;
    try discriminate; [reflexivity|].
  intros [= -> Hrest]. f_equal. now apply IH.
Qed.

Lemma find_projected (slug : string) (docs : list dict) :
  List.find (slug_is slug) (map project_out_id docs)
  = option_map project_out_id (List.find (slug_is slug) docs).
Proof.
  induction docs as [|d docs IH]; simpl; [reflexivity|].
  rewrite slug_is_projected.
  now destruct (slug_is slug d).
Qed.

Lemma projected_keeps_fields (doc : dict) :
  Dict.get "_id" (project_out_id doc) = None
  /\ forall k, k <> "_id" ->
       Dict.get k (project_out_id doc) = Dict.get k doc.
Proof.
  split; [apply get_remove_same|].
  intros k Hk. apply get_remove_other. congruence.
Qed.

(** The loop over a list of products that all have a string slug is a
    search for the first one with the slug asked for. *)
Lemma product_fallback_find (ps : list dict) (slug : string) :
  Forall (fun p => is_str (Dict.get "slug" p) = true) ps ->
  product_fallback ps slug
  = match List.find (slug_is slug) ps with
    | Some p => JSON (VDict p)
    | None => HTTPException 404 "Product not found"
    end.
Proof.
  induction 1 as [|p ps Hp _ IH]; simpl; [reflexivity|].
  unfold slug_is.
  destruct (Dict.get "slug" p) as [[| | | |s| | |]|]; try discriminate.
  simpl. now destruct (String.eqb s slug).
Qed.

Lemma default_products_have_slugs :
  Forall (fun p => is_str (Dict.get "slug" p) = true) _default_products.
Proof. repeat constructor. Qed.

(** The two ways the catalog is served: from the built-in list, together
    with every product lookup, or from a store that holds a product. *)
Lemma catalog_cases (env : database_module) :
  (list_products env = JSON (items_body _default_products)
   /\ forall slug,
        get_product env slug = product_fallback _default_products slug)
  \/ (exists db d docs,
        env = Module_db (Some db)
        /\ db "product" = Docs (d :: docs)
        /\ list_products env
           = JSON (items_body (map project_out_id (d :: docs)))).
Proof.
  destruct env as [|[db|]]; try (left; split; reflexivity).
  destruct (db "product") as [[|d docs]|] eqn:E.
  - left. unfold list_products, list_products_stored, get_product,
      get_product_stored; simpl. rewrite E. split; reflexivity.
  - right. exists db, d, docs. split; [reflexivity|]. split; [exact E|].
    unfold list_products, list_products_stored; simpl. now rewrite E.
  - left. unfold list_products, list_products_stored, get_product,
      get_product_stored; simpl. rewrite E. split; reflexivity.
Qed.


(** X2: the three built-in slugs resolve in every state of the store,
    reachable or not, empty or not: the lookup never answers NotFound for
    them. *)
Theorem default_slug_always_resolves (env : database_module) (slug : string) :
  In slug default_slugs ->
  exists item, get_product env slug = JSON (VDict item)
               /\ Dict.get "slug" item = Some (VStr slug).
Proof.
  intros Hin.
  destruct (stored_document env "product" slug) as [doc|] eqn:Hdoc.
  - destruct (stored_product_has_no_id _ _ _ Hdoc) as (item & Hget & Hslug & _).
    now exists item.
  - rewrite (absent_product _ _ Hdoc).
    destruct (product_fallback_known slug Hin) as (p & _ & Hslug & Hp).
    now exists p.
Qed.

Lemma default_slug_always_resolves_witness :
  exists item,
    get_product (Module_db (Some sample_store)) "ai-cam-s1" = JSON (VDict item)
    /\ Dict.get "slug" item = Some (VStr "ai-cam-s1").
Proof.
  apply (default_slug_always_resolves (Module_db (Some sample_store))).
  simpl. tauto.
Defined.

(** X3: a stored product wins over a built-in one of the same slug, and is
    returned as stored, every field but the storage identifier. *)
Theorem stored_product_returned_verbatim
  (env : database_module) (slug : string) (doc : dict) :
  stored_document env "product" slug = Some doc ->
  exists item, get_product env slug = JSON (VDict item)
               /\ Dict.get "_id" item = None
               /\ forall k, k <> "_id" -> Dict.get k item = Dict.get k doc.
Proof.
  intros Hdoc. exists (project_out_id doc).
  split; [now apply found_product|]. apply projected_keeps_fields.
Qed.

Lemma stored_product_returned_verbatim_witness :
  exists item,
    get_product (Module_db (Some second_store)) "gan-30w" = JSON (VDict item)
    /\ Dict.get "_id" item = None
    /\ forall k, k <> "_id" -> Dict.get k item = Dict.get k stored_gan_30w.
Proof.
  apply (stored_product_returned_verbatim
           (Module_db (Some second_store)) "gan-30w" stored_gan_30w).
  reflexivity.
Defined.

(** X4: a reachable store with at least one product is listed as it is:
    the list under [items] has one item per stored document, in storage
    order, each with every field of its document but the storage
    identifier, and no built-in product added. *)
Theorem list_products_stored_catalogue
  (db : Database) (d : dict) (docs : list dict) :
  db "product" = Docs (d :: docs) ->
  exists items,
    list_products (Module_db (Some db))
    = JSON (VDict [ ("items", VList (map VDict items)) ])
    /\ Forall2 (fun doc item =>
                  Dict.get "_id" item = None
                  /\ forall k, k <> "_id" -> Dict.get k item = Dict.get k doc)
               (d :: docs) items.
Proof.
  intros Hdocs. exists (map project_out_id (d :: docs)). split.
  - unfold list_products, list_products_stored; simpl. now rewrite Hdocs.
  - generalize (d :: docs). intros l.
    induction l as [|x l IH]; simpl; constructor;
      [apply projected_keeps_fields | exact IH].
Qed.

Lemma list_products_stored_catalogue_witness :
  exists items,
    list_products (Module_db (Some second_store))
    = JSON (VDict [ ("items", VList (map VDict items)) ])
    /\ Forall2 (fun doc item =>
                  Dict.get "_id" item = None
                  /\ forall k, k <> "_id" -> Dict.get k item = Dict.get k doc)
               [stored_charger; stored_gan_30w] items.
Proof.
  apply (list_products_stored_catalogue second_store stored_charger
           [stored_gan_30w]).
  reflexivity.
Defined.

(** X5: the response of the listing is always a list of documents under
    [items], none of which carries a storage identifier, whether they come
    from the store or from the built-in list. *)
Theorem listed_items_have_no_id (env : database_module) :
  exists items,
    list_products env = JSON (VDict [ ("items", VList (map VDict items)) ])
    /\ Forall (fun item => Dict.get "_id" item = None) items.
Proof.
  destruct (catalog_cases env) as [[Hlist _]|(db & d & docs & _ & _ & Hlist)].
  - exists _default_products. split; [exact Hlist | repeat constructor].
  - exists (map project_out_id (d :: docs)). split; [exact Hlist|].
    apply Forall_forall. intros item (doc & <- & _)%in_map_iff.
    apply get_remove_same.
Qed.

(** X6: the listing and the lookup agree: the first listed item with a
    given slug is exactly what the lookup of that slug returns. *)
Theorem listed_product_resolves
  (env : database_module) (items : list dict) (slug : string) (item : dict) :
  list_products env = JSON (items_body items) ->
  List.find (slug_is slug) items = Some item ->
  get_product env slug = JSON (VDict item).
Proof.
  intros Hitems Hfind.
  destruct (catalog_cases env)
    as [[Hlist Hget]|(db & d & docs & -> & Hdocs & Hlist)];
    rewrite Hlist in Hitems; apply items_body_inj in Hitems; subst items.
  - rewrite Hget, (product_fallback_find _ _ default_products_have_slugs).
    now rewrite Hfind.
  - rewrite find_projected in Hfind.
    destruct (List.find (slug_is slug) (d :: docs)) as [doc|] eqn:Hdoc;
      [|discriminate].
    injection Hfind as <-. apply found_product.
    simpl. now rewrite Hdocs.
Qed.

Lemma listed_product_resolves_witness :
  get_product (Module_db (Some second_store)) "gan-30w"
  = JSON (VDict (project_out_id stored_gan_30w)).
Proof.
  apply (listed_product_resolves (Module_db (Some second_store))
           [project_out_id stored_charger; project_out_id stored_gan_30w]);
    reflexivity.
Defined.

(** ** What the page handler keeps *)

Lemma set_same (k : string) (v : value) (d : dict) :
  Dict.get k d = Some v -> Dict.set k v d = d.
Proof.
  induction d as [|[k' v'] d IH]; simpl; [discriminate|].
  destruct (String.eqb_spec k' k) as [->|_].
  - now intros [= ->].
  - intros Hget. now rewrite IH.
Qed.

Lemma set_absent (k : string) (v : value) (d : dict) :
  Dict.get k d = None -> Dict.set k v d = (d ++ [(k, v)])%list.
Proof.
  induction d as [|[k' v'] d IH]; simpl; [reflexivity|].
  destruct (String.eqb k' k); [discriminate|].
  intros Hget. now rewrite IH.
Qed.

Lemma page_fallback_cases (slug : string) :
  (slug = "home"
   /\ page_fallback slug = JSON (VDict (Page_model_dump default_homepage)))
  \/ (slug <> "home"
      /\ page_fallback slug = HTTPException 404 "Page not found").
Proof.
  unfold page_fallback.
  destruct (String.eqb_spec slug "home"); [left | right]; now split.
Qed.

(** Validation undoes [model_dump] on a section. *)
Lemma Section_validate_dump `{Coercions} (sec : Section_) :
  Section_validate (Section_model_dump sec) = Return sec.
Proof.
  destruct sec as [type data position is_visible].
  unfold Section_validate, Section_model_dump, with_default; simpl.
  now rewrite int_lax_exact, bool_lax_exact.
Qed.

Lemma normalize_fixed `{Coercions} (s out : value) :
  normalize_section s = Return out -> normalize_section out = Return out.
Proof.
  destruct s as [| | | | | |d|]; try (now intros [= <-]).
  simpl. destruct (Section_validate d) as [sec|e]; simpl; [|discriminate].
  intros [= <-]. simpl. now rewrite Section_validate_dump.
Qed.

Lemma traverse_fixed `{Coercions} (secs outs : list value) :
  traverse normalize_section secs = Return outs ->
  traverse normalize_section outs = Return outs.
Proof.
  revert outs.
  induction secs as [|s secs IH]; simpl; intros outs.
  - now intros [= <-].
  - destruct (normalize_section s) as [out|e] eqn:Hs; simpl; [|discriminate].
    destruct (traverse normalize_section secs) as [outs'|e] eqn:Hrest;
      simpl; [|discriminate].
    intros [= <-]. simpl.
    now rewrite (normalize_fixed _ _ Hs), (IH _ eq_refl).
Qed.

Lemma traverse_length {A B : Type} (f : A -> result B) (l : list A)
  (bs : list B) :
  traverse f l = Return bs -> length bs = length l.
Proof.
  revert bs.
  induction l as [|a l IH]; simpl; intros bs.
  - now intros [= <-].
  - destruct (f a) as [b|e]; simpl; [|discriminate].
    destruct (traverse f l) as [bs'|e]; simpl; [|discriminate].
    intros [= <-]. simpl. now rewrite (IH _ eq_refl).
Qed.

Lemma traverse_dumps `{Coercions} (l : list Section_) :
  traverse normalize_section (map (fun s => VDict (Section_model_dump s)) l)
  = Return (map (fun s => VDict (Section_model_dump s)) l).
Proof.
  induction l as [|s l IH]; [reflexivity|].
  cbn [map traverse]. rewrite IH.
  cbn [normalize_section]. now rewrite Section_validate_dump.
Qed.

(** The sections of every page that comes back are already normalized. *)
Lemma returned_page_normalized `{Coercions}
  (env : database_module) (slug : string) (page : dict) :
  get_page env slug = JSON (VDict page) ->
  exists outs, Dict.get "sections" page = Some (VList outs)
               /\ traverse normalize_section outs = Return outs.
Proof.
  assert (Hfall : page_fallback slug = JSON (VDict page) ->
            exists outs, Dict.get "sections" page = Some (VList outs)
                         /\ traverse normalize_section outs = Return outs).
  { destruct (page_fallback_cases slug) as [[_ ->]|[_ ->]]; [|discriminate].
    intros [= <-]. eexists. split; [reflexivity|]. apply traverse_dumps. }
  destruct (stored_document env "page" slug) as [doc|] eqn:Hdoc.
  - rewrite (found_page _ _ _ Hdoc).
    destruct (iterate (sections_of doc)) as [secs|e]; simpl; [|exact Hfall].
    destruct (traverse normalize_section secs) as [outs|e] eqn:Houts;
      [|exact Hfall].
    intros [= <-]. exists outs. split; [apply get_set_same|].
    now apply traverse_fixed with (secs := secs).
  - now rewrite (absent_page _ _ Hdoc).
Qed.

(** X7: the handler [get_page] itself ends in one of two ways only: it
    returns a page document with a list under [sections], or it raises
    NotFound (404), and the latter never for [home].  No storage, type or
    validation error raised inside it propagates.  This is about what the
    handler returns: a returned document may still hold its storage
    identifier, and encoding it for the wire is not part of the handler. *)
Theorem get_page_result `{Coercions} (env : database_module) (slug : string) :
  (exists page sections,
     get_page env slug = JSON (VDict page)
     /\ Dict.get "sections" page = Some (VList sections))
  \/ (slug <> "home"
      /\ get_page env slug = HTTPException 404 "Page not found").
Proof.
  assert (Hfall :
    (exists page sections,
       page_fallback slug = JSON (VDict page)
       /\ Dict.get "sections" page = Some (VList sections))
    \/ (slug <> "home"
        /\ page_fallback slug = HTTPException 404 "Page not found")).
  { destruct (page_fallback_cases slug) as [[_ ->]|[Hne ->]].
    - left. do 2 eexists. split; reflexivity.
    - right. now split. }
  destruct (stored_document env "page" slug) as [doc|] eqn:Hdoc.
  - rewrite (found_page _ _ _ Hdoc).
    destruct (iterate (sections_of doc)) as [secs|e]; simpl; [|exact Hfall].
    destruct (traverse normalize_section secs) as [outs|e]; [|exact Hfall].
    left. do 2 eexists. split; [reflexivity | apply get_set_same].
  - now rewrite (absent_page _ _ Hdoc).
Qed.

(** X8: a stored page with no [sections] key comes back as stored, with an
    empty [sections] list added after its other fields. *)
Theorem page_without_sections_key `{Coercions}
  (env : database_module) (slug : string) (doc : dict) :
  stored_document env "page" slug = Some doc ->
  Dict.get "sections" doc = None ->
  get_page env slug = JSON (VDict (doc ++ [("sections", VList [])])%list).
Proof.
  intros Hdoc Hnone.
  rewrite (found_page _ _ _ Hdoc). unfold sections_of. rewrite Hnone.
  simpl. now rewrite set_absent.
Qed.

Lemma page_without_sections_key_witness :
  get_page (Module_db (Some second_store)) "bare"
  = JSON (VDict [ ("title", VStr "Bare"); ("slug", VStr "bare");
                  ("sections", VList []) ]).
Proof.
  apply (page_without_sections_key (Module_db (Some second_store)) "bare"
           bare_page); reflexivity.
Defined.

(** X9: a stored page whose [sections] is null, a boolean, a number or an
    object id is not returned: iterating it raises, the error is swallowed,
    and the lookup behaves as if the page were not stored. *)
Theorem unusable_sections_hide_page `{Coercions}
  (env : database_module) (slug : string) (doc : dict) (v : value) :
  stored_document env "page" slug = Some doc ->
  Dict.get "sections" doc = Some v ->
  (v = VNone \/ (exists b, v = VBool b) \/ (exists z, v = VInt z)
   \/ (exists f, v = VFloat f) \/ (exists hex, v = VObjectId hex)) ->
  get_page env slug
  = if String.eqb slug "home"
    then JSON (VDict (Page_model_dump default_homepage))
    else HTTPException 404 "Page not found".
Proof.
  intros Hdoc Hv Hkind.
  rewrite (found_page _ _ _ Hdoc). unfold sections_of. rewrite Hv.
  destruct Hkind as [->|[[b ->]|[[z ->]|[[f ->]|[hex ->]]]]]; reflexivity.
Qed.

Lemma unusable_sections_hide_page_witness :
  get_page (Module_db (Some second_store)) "draft"
  = HTTPException 404 "Page not found".
Proof.
  apply (unusable_sections_hide_page (Module_db (Some second_store)) "draft"
           draft_page VNone); [reflexivity | reflexivity | now left].
Defined.

(** X10: when a stored page with a list of acceptable sections is
    returned, only its [sections] change: the list has as many entries as
    the stored list, and every other field, the storage identifier
    included, is as stored. *)
Theorem stored_page_fields_kept `{Coercions}
  (env : database_module) (slug : string) (doc : dict) (secs : list value) :
  stored_document env "page" slug = Some doc ->
  Dict.get "sections" doc = Some (VList secs) ->
  forallb section_accepted secs = true ->
  exists page outs,
    get_page env slug = JSON (VDict page)
    /\ Dict.get "sections" page = Some (VList outs)
    /\ length outs = length secs
    /\ forall k, k <> "sections" -> Dict.get k page = Dict.get k doc.
Proof.
  intros Hdoc Hsecs Hall.
  rewrite (found_page _ _ _ Hdoc). unfold sections_of. rewrite Hsecs. simpl.
  destruct (traverse_accepted _ Hall) as (outs & Houts & _).
  rewrite Houts. do 2 eexists. split; [reflexivity|].
  split; [apply get_set_same|]. split.
  - now apply traverse_length with (f := normalize_section).
  - intros k Hk. apply get_set_other. congruence.
Qed.

Lemma stored_page_fields_kept_witness :
  exists page outs,
    get_page (Module_db (Some sample_store)) "about" = JSON (VDict page)
    /\ Dict.get "sections" page = Some (VList outs)
    /\ length outs = 3%nat
    /\ forall k, k <> "sections" -> Dict.get k page = Dict.get k about_page.
Proof.
  apply (stored_page_fields_kept (Module_db (Some sample_store)) "about"
           about_page _ eq_refl eq_refl).
  reflexivity.
Defined.

(** X11: the page handler is idempotent on what it returns: a page that
    came back from a lookup, stored as it is under its slug, comes back
    unchanged, from any store. *)
Theorem get_page_fixed_point `{Coercions}
  (env env' : database_module) (slug : string) (page : dict) :
  get_page env slug = JSON (VDict page) ->
  stored_document env' "page" slug = Some page ->
  get_page env' slug = JSON (VDict page).
Proof.
  intros Hpage Hstored.
  destruct (returned_page_normalized _ _ _ Hpage) as (outs & Hget & Hfix).
  rewrite (found_page _ _ _ Hstored). unfold sections_of. rewrite Hget.
  simpl. rewrite Hfix. now rewrite (set_same _ _ _ Hget).
Qed.

Lemma get_page_fixed_point_witness :
  get_page
    (Module_db (Some (update empty_store "page"
                        (Docs [(bare_page ++ [("sections", VList [])])%list]))))
    "bare"
  = JSON (VDict (bare_page ++ [("sections", VList [])])%list).
Proof.
  apply (get_page_fixed_point (Module_db (Some second_store))); reflexivity.
Defined.

(** ** What lead intake keeps *)

(** Validation undoes [model_dump] on a lead. *)
Lemma Lead_validate_dump (lead : Lead) :
  Lead_validate (Lead_model_dump lead) = Return lead.
Proof.
  destruct lead as [name email [phone|] [company|] [message|] [pslug|]
                      [source|]]; reflexivity.
Qed.

(** X12: the echoed lead is a fixed point of intake: posting the [lead] of
    an acknowledgement back, in any state of the store, gives the same
    acknowledgement. *)
Theorem lead_resubmission
  (env env' : database_module) (body payload : dict) :
  fst (post_api_leads env (VDict body))
  = JSON (VDict [ ("status", VStr "ok");
                  ("message", VStr "Lead received");
                  ("lead", VDict payload) ]) ->
  fst (post_api_leads env' (VDict payload))
  = fst (post_api_leads env (VDict body)).
Proof.
  unfold post_api_leads.
  destruct (Lead_validate body) as [lead|e]; [|discriminate].
  rewrite create_lead_response. unfold lead_received.
  intros [= <-]. now rewrite Lead_validate_dump, create_lead_response.
Qed.

Lemma lead_resubmission_witness :
  fst (post_api_leads (Module_db (Some broken_store))
         (VDict [ ("name", VStr "A"); ("email", VStr "a@b.com");
                  ("phone", VNone); ("company", VNone); ("message", VNone);
                  ("product_slug", VNone); ("source", VStr "website") ]))
  = fst (post_api_leads NoModule
           (VDict [ ("name", VStr "A"); ("email", VStr "a@b.com");
                    ("nickname", VStr "ignored") ])).
Proof.
  apply (lead_resubmission NoModule (Module_db (Some broken_store))).
  reflexivity.
Defined.

(** ** The diagnostic probe *)

Lemma slice_to_len (n : nat) (s : string) : (len (slice_to n s) <= n)%nat.
Proof.
  revert n.
  induction s as [|c s IH]; intros n; simpl; [lia|].
  destruct (continuation c) eqn:Hc; simpl.
  - rewrite Hc. apply IH.
  - destruct n as [|n]; simpl; [lia|].
    rewrite Hc. specialize (IH n). lia.
Qed.

Lemma slice_to_prefix (n : nat) (s : string) :
  exists rest, s = slice_to n s ++ rest.
Proof.
  revert n.
  induction s as [|c s IH]; intros n; simpl.
  - now exists "".
  - destruct (continuation c).
    + destruct (IH n) as [rest Hrest]. exists rest. simpl. now f_equal.
    + destruct n as [|n].
      * now exists (String c s).
      * destruct (IH n) as [rest Hrest]. exists rest. simpl. now f_equal.
Qed.

Lemma slice_to_short (n : nat) (s : string) :
  (len s <= n)%nat -> slice_to n s = s.
Proof.
  revert n.
  induction s as [|c s IH]; intros n; simpl; [reflexivity|].
  destruct (continuation c).
  - intros Hle. now rewrite IH.
  - destruct n as [|n]; [lia|].
    intros Hle. rewrite IH; [reflexivity | lia].
Qed.

(** X13: the report always has the same six keys, [backend] is always
    running, and [database_url] and [database_name] say only whether the
    two environment variables are set to something non-empty: the client's
    own name, written first, never reaches the caller. *)
Theorem probe_reports_environment (os : environ) (m : imported) :
  Dict.keys (test_database os m)
  = ["backend"; "database"; "database_url"; "database_name";
     "connection_status"; "collections"]
  /\ Dict.get "backend" (test_database os m) = Some (VStr "✅ Running")
  /\ Dict.get "database_url" (test_database os m)
     = Some (VStr (if getenv_truthy os "DATABASE_URL"
                   then "✅ Set" else "❌ Not Set"))
  /\ Dict.get "database_name" (test_database os m)
     = Some (VStr (if getenv_truthy os "DATABASE_NAME"
                   then "✅ Set" else "❌ Not Set")).
Proof.
  unfold test_database, set_flag.
  destruct m as [|e|[[name [names|e]]|]]; simpl;
    destruct (getenv_truthy os "DATABASE_URL");
    destruct (getenv_truthy os "DATABASE_NAME");
    repeat split.
Qed.

(** X14: the report shows at most ten collections, the first ten the client
    lists, and none unless the listing succeeded; [connection_status] is
    [Connected] exactly when it did. *)
Theorem probe_collections_bounded (os : environ) (m : imported) :
  exists shown,
    Dict.get "collections" (test_database os m) = Some (VList (map VStr shown))
    /\ (length shown <= 10)%nat
    /\ (forall db names,
          m = Bound (Some db) -> list_collection_names db = Names names ->
          shown = firstn 10 names)
    /\ (branch_of m <> connected -> shown = [])
    /\ Dict.get "connection_status" (test_database os m)
       = Some (VStr (match branch_of m with
                     | connected => "Connected"
                     | _ => "Not Connected"
                     end)).
Proof.
  unfold test_database.
  destruct m as [|e|[[name [names|e]]|]]; simpl.
  1,2,4,5: exists []; repeat split; try (simpl; lia); try discriminate.
  - intros db names [= <-]. discriminate.
  - exists (firstn 10 names). repeat split.
    + apply firstn_le_length.
    + now intros db names' [= <-] [= <-].
    + intros Hne. now contradiction Hne.
Qed.

Lemma probe_collections_bounded_witness :
  exists shown,
    Dict.get "collections"
      (test_database full_environ (Bound (Some named_client)))
    = Some (VList (map VStr shown))
    /\ shown = ["page"; "product"; "lead"; "c4"; "c5"; "c6"; "c7"; "c8";
                "c9"; "c10"].
Proof.
  destruct (probe_collections_bounded full_environ (Bound (Some named_client)))
    as (shown & Hget & _ & Hfirst & _).
  exists shown. split; [exact Hget|].
  now apply (Hfirst named_client _ eq_refl eq_refl).
Defined.

(** X15: the [database] line of the report tells the five outcomes of the
    probe apart: two reports with the same line took the same branch,
    whatever the error messages and the environment.  The two placeholder
    lines the report starts from are never what is returned. *)
Theorem probe_status_identifies_branch
  (os os' : environ) (m m' : imported) :
  (Dict.get "database" (test_database os m)
   = Dict.get "database" (test_database os' m') ->
   branch_of m = branch_of m')
  /\ Dict.get "database" (test_database os m)
     <> Some (VStr "❌ Not Available")
  /\ Dict.get "database" (test_database os m) <> Some (VStr "✅ Available").
Proof.
  unfold test_database.
  split; [|split].
  - destruct m as [|e|[[name [names|e]]|]];
      destruct m' as [|e'|[[name' [names'|e']]|]]; simpl;
      intros Heq; try reflexivity; discriminate Heq.
  - destruct m as [|e|[[name [names|e]]|]]; simpl; discriminate.
  - destruct m as [|e|[[name [names|e]]|]]; simpl; discriminate.
Qed.

Lemma probe_status_identifies_branch_witness :
  branch_of (Bound (Some failing_client))
  = branch_of (Bound (Some {| client_name := Some (VStr "other");
                              list_collection_names :=
                                ListingError "connection refused" |})).
Proof.
  apply (probe_status_identifies_branch no_environ full_environ).
  reflexivity.
Defined.

(** X16: the error detail in the [database] line is the first 80
    characters of the exception's message, the whole message when it has no
    more than 80. *)
Theorem probe_error_detail_truncated
  (os : environ) (db : client) (e : string) :
  (exists detail,
     Dict.get "database" (test_database os (ImportCrashes e))
     = Some (VStr ("❌ Error: " ++ detail))
     /\ (len detail <= 80)%nat
     /\ (exists rest, e = detail ++ rest)
     /\ ((len e <= 80)%nat -> detail = e))
  /\ (list_collection_names db = ListingError e ->
      exists detail,
        Dict.get "database" (test_database os (Bound (Some db)))
        = Some (VStr ("⚠️  Connected but Error: " ++ detail))
        /\ (len detail <= 80)%nat
        /\ (exists rest, e = detail ++ rest)
        /\ ((len e <= 80)%nat -> detail = e)).
Proof.
  split; [|intros Hlist]; exists (slice_to 80 e);
    (split; [|split; [apply slice_to_len
                     |split; [apply slice_to_prefix | apply slice_to_short]]]).
  - reflexivity.
  - unfold test_database. now rewrite Hlist.
Qed.

Lemma probe_error_detail_truncated_witness :
  exists detail,
    Dict.get "database" (test_database no_environ (Bound (Some failing_client)))
    = Some (VStr ("⚠️  Connected but Error: " ++ detail))
    /\ (len detail <= 80)%nat
    /\ (exists rest, "connection refused" = detail ++ rest)
    /\ ((len "connection refused" <= 80)%nat -> detail = "connection refused").
Proof.
  apply (probe_error_detail_truncated no_environ failing_client
           "connection refused").
  reflexivity.
Defined.

(** ** Schema introspection *)

(** X17: the schema endpoint reports, for each of the four entities, the
    keys every dumped document of that entity has, in order: the echoed
    lead, the built-in page and its sections, every normalized section and
    the built-in products carry exactly the fields the schema lists. *)
Theorem schema_matches_documents :
  (exists page section product lead,
     get_schema_overview
     = VDict [ ("entities",
                VList [ VDict [ ("name", VStr "page");
                                ("fields", VList (map VStr page)) ];
                        VDict [ ("name", VStr "section");
                                ("fields", VList (map VStr section)) ];
                        VDict [ ("name", VStr "product");
                                ("fields", VList (map VStr product)) ];
                        VDict [ ("name", VStr "lead");
                                ("fields", VList (map VStr lead)) ] ]) ]
     /\ (forall p : Page, Dict.keys (Page_model_dump p) = page)
     /\ (forall s : Section_, Dict.keys (Section_model_dump s) = section)
     /\ (forall p : Product, Dict.keys (Product_model_dump p) = product)
     /\ Forall (fun p => Dict.keys p = product) _default_products
     /\ (forall l : Lead, Dict.keys (Lead_model_dump l) = lead)).
Proof.
  exists Page_model_fields, Section_model_fields, Product_model_fields,
    Lead_model_fields.
  repeat split. repeat constructor.
Qed.

(** ** Lead intake and the read endpoints *)

Lemma update_other (db : Database) (name other : string) (c : collection) :
  other <> name -> update db name c other = db other.
Proof.
  intros Hne. unfold update.
  destruct (String.eqb_spec other name); [contradiction | reflexivity].
Qed.

(** The state lead intake leaves: the one it found, or the same store with
    another [lead] collection. *)
Lemma post_api_leads_state (env : database_module) (body : value) :
  snd (post_api_leads env body) = env
  \/ exists db c, env = Module_db (Some db)
                  /\ snd (post_api_leads env body)
                     = Module_db (Some (update db "lead" c)).
Proof.
  unfold post_api_leads.
  destruct body as [| | | | | |b|]; try (now left).
  destruct (Lead_validate b) as [lead|e]; [|now left].
  unfold create_lead; simpl.
  destruct env as [|[db|]]; try (now left). simpl.
  destruct (db "lead") as [docs|]; [|now left].
  right. now exists db, (Docs (docs ++ [Lead_model_dump lead])).
Qed.

(** X18: submitting a lead, accepted or not, persisted or not, changes
    nothing the read endpoints return: every page lookup, product lookup
    and the listing answer after it as they did before.  (The write is
    given the collection name [lead] and is modelled as touching that
    collection only.) *)
Theorem lead_intake_leaves_content `{Coercions}
  (env : database_module) (body : value) (slug : string) :
  get_page (snd (post_api_leads env body)) slug = get_page env slug
  /\ get_product (snd (post_api_leads env body)) slug = get_product env slug
  /\ list_products (snd (post_api_leads env body)) = list_products env.
Proof.
  destruct (post_api_leads_state env body) as [->|(db & c & -> & ->)];
    [repeat split|].
  unfold get_page, get_page_stored, get_product, get_product_stored,
    list_products, list_products_stored; simpl.
  rewrite !update_other by discriminate.
  repeat split.
Qed.
